(** * gh-community-analytics: response-attribution and business-hours metrics

    A shallow embedding of the TypeScript sources (utils.ts, types.ts,
    metrics.ts, github.ts, index.ts) and the properties the specification
    states about them.

    Conventions of the embedding
    - A JavaScript [Date] is its time value: an integer number of
      milliseconds since the epoch ([Z]).  Only valid dates are modelled.
      The strings the remote API returns for instants are taken as already
      parsed by [new Date(...)].
    - Local-time accessors ([getDay], [setDate], [setHours]) are taken in a
      zone with a fixed offset [tz] (local minus UTC, in milliseconds);
      [tz = 0] is the UTC day boundary of the specification.
    - A JavaScript [number] that holds hours belongs to a class of numbers
      with two instances: IEEE binary64 doubles (the kernel's [float]), the
      arithmetic JavaScript computes with, and exact rationals ([Q]), the
      arithmetic in which the equalities and orderings of hours are proved.
      What does not depend on the arithmetic is proved for every instance.
      Rates and percentages are quotients of counts and have the type
      [Rate], which has a value for the result of a division by zero.
      Counts, issue numbers and time values are integers.
    - [Set<string>] is a [gset string]; [Map<string, _>] is an association
      list in insertion order.
    - A rejected promise or thrown [Error] is [Throw message]. *)

From Stdlib Require Import ZArith QArith Lia Lqa List Permutation Sorted.
From Stdlib Require Import Floats Uint63.
From stdpp Require Import base strings gmap sorting.
From Equations Require Import Equations.

Local Open Scope Z_scope.

(** ** utils.ts: dates *)

Definition msPerHour : Z := 1000 * 60 * 60.
Definition msPerDay : Z := 24 * msPerHour.

(** Number of whole local days since 1970-01-01 (floor division, so
    instants before the epoch are handled as well). *)
Definition localDay (tz t : Z) : Z := (t + tz) / msPerDay.

(** [Date.prototype.getDay]: 0 is Sunday, 6 is Saturday.  1 January 1970
    was a Thursday (4). *)
Definition getDay (tz t : Z) : Z := (localDay tz t + 4) mod 7.

(** [d.setDate(d.getDate() + k)]: [setDate] rolls over month boundaries, so
    the effect is a shift by [k] calendar days at the same local time of
    day. *)
Definition addDays (t k : Z) : Z := t + k * msPerDay.

(** [d.setHours(0, 0, 0, 0)]: local midnight of the same local day. *)
Definition startOfDay (tz t : Z) : Z := localDay tz t * msPerDay - tz.

(** The two statements [x.setDate(x.getDate() + 1); x.setHours(0, 0, 0, 0)]
    that both [nextDay] and [currentDate] go through in the loop. *)
Definition nextMidnight (tz t : Z) : Z := startOfDay tz (addDays t 1).

(** ** utils.ts: numbers *)

(** The operations on [number]s that utils.ts uses: an integer taken as a
    number, [+], [/] and [<=]. *)
Class Number (N : Type) := mkNumber
  { ofZ : Z -> N;
    add : N -> N -> N;
    div : N -> N -> N;
    leb : N -> N -> bool }.

(** Exact arithmetic. *)
#[global] Instance exact : Number Q :=
  {| ofZ := inject_Z; add := Qplus; div := Qdiv; leb := Qle_bool |}.

(** An integer as a double; exact below [2^53] in absolute value, which
    covers every time value of a [Date]. *)
Definition floatOfZ (z : Z) : float :=
  match z with
  | Z0 => PrimFloat.of_uint63 0
  | Zpos p => PrimFloat.of_uint63 (Uint63.of_Z (Zpos p))
  | Zneg p => PrimFloat.opp (PrimFloat.of_uint63 (Uint63.of_Z (Zpos p)))
  end.

(** The arithmetic of JavaScript: IEEE 754 binary64, round to nearest. *)
#[global] Instance binary64 : Number float :=
  {| ofZ := floatOfZ;
     add := PrimFloat.add;
     div := PrimFloat.div;
     leb := PrimFloat.leb |}.

(** ** utils.ts: working hours and week start *)

(** [(b.getTime() - a.getTime()) / (1000 * 60 * 60)] *)
Definition hoursBetween {N} `{Number N} (a b : Z) : N :=
  div (ofZ (b - a)) (ofZ msPerHour).

(** One iteration of the body of the [while] loop of
    [calculateWorkingHours], up to the update of [hours]. *)
Definition addPeriod {N} `{Number N} (tz currentDate end_ : Z) (hours : N) : N :=
  let dayOfWeek := getDay tz currentDate in
  if negb (dayOfWeek =? 0) && negb (dayOfWeek =? 6) then
    let nextDay := nextMidnight tz currentDate in
    let endOfPeriod := if nextDay <? end_ then nextDay else end_ in
    let periodHours := hoursBetween currentDate endOfPeriod in
    add hours periodHours
  else hours.

(** [while (currentDate < end) { ... }].  The loop terminates because every
    iteration moves [currentDate] to the next local midnight. *)
Equations? workingLoop {N} `{Number N} (tz currentDate end_ : Z) (hours : N) : N
  by wf (Z.to_nat (localDay tz end_ - localDay tz currentDate + 1)) lt :=
  workingLoop tz currentDate end_ hours with Z_lt_dec currentDate end_ => {
    | left _ =>
        workingLoop tz (nextMidnight tz currentDate) end_
                    (addPeriod tz currentDate end_ hours)
    | right _ => hours }.
Proof.
  assert (Hd : 0 < msPerDay) by (unfold msPerDay, msPerHour; lia).
  assert (Hn : localDay tz (nextMidnight tz currentDate)
               = localDay tz currentDate + 1).
  { unfold nextMidnight, startOfDay, addDays, localDay.
    replace (currentDate + 1 * msPerDay + tz)
      with (currentDate + tz + 1 * msPerDay) by lia.
    rewrite Z.div_add by lia.
    replace (((currentDate + tz) / msPerDay + 1) * msPerDay - tz + tz)
      with (0 + ((currentDate + tz) / msPerDay + 1) * msPerDay) by lia.
    rewrite Z.div_add by lia. reflexivity. }
  assert (localDay tz currentDate <= localDay tz end_)
    by (apply Z.div_le_mono; lia).
  rewrite Hn. lia.
Qed.

Definition calculateWorkingHours {N} `{Number N} (tz start end_ : Z) : N :=
  if end_ <? start then ofZ 0
  else
    let currentDate := start in
    let hours := ofZ 0 in
    workingLoop tz currentDate end_ hours.

Definition isWithinOneWorkingDay {N} `{Number N} (tz start end_ : Z) : bool :=
  let workingHours : N := calculateWorkingHours tz start end_ in
  leb workingHours (ofZ 24).

Definition getWeekStart (tz date : Z) : Z :=
  let d := date in
  let day := getDay tz d in
  (* diff = d.getDate() - day + (day === 0 ? -6 : 1); d.setDate(diff) *)
  let d := addDays d (- day + (if day =? 0 then -6 else 1)) in
  let weekStart := d in
  startOfDay tz weekStart.

(** ** utils.ts: statistics *)

(** [a - b] as a comparator: [a] goes first when the difference is not
    positive, that is when [a <= b].  [Array.prototype.sort] is modelled by
    stdpp's merge sort; the statements below depend on the result only up to
    the order of elements the comparator deems equal. *)
Definition numLe {N} `{Number N} (a b : N) : Prop := leb a b = true.

#[global] Instance numLe_dec {N} `{Number N} (a b : N) : Decision (numLe a b).
Proof. unfold numLe. apply _. Defined.

Definition sortNumbers {N} `{Number N} (l : list N) : list N :=
  merge_sort numLe l.

(** [a[i]] for an index inside the array. *)
Definition at_index {N} `{Number N} (l : list N) (i : nat) : N :=
  nth i l (ofZ 0).

Module Stats.
Record t {N : Type} := mk
    { min : option N; max : option N; mean : option N; median : option N }.
Arguments t : clear implicits.
Arguments mk {N}.
End Stats.

Definition calculateStats {N} `{Number N} (responseTimes : list N) : Stats.t N :=
  if (length responseTimes =? 0)%nat then
    Stats.mk None None None None
  else
    let sorted := sortNumbers responseTimes in
    let min := at_index sorted 0 in
    let max := at_index sorted (length sorted - 1) in
    let sum := fold_left (fun acc val => add acc val) sorted (ofZ 0) in
    let mean := div sum (ofZ (Z.of_nat (length sorted))) in
    let median :=
      if (length sorted mod 2 =? 0)%nat then
        div (add (at_index sorted (length sorted / 2 - 1))
                 (at_index sorted (length sorted / 2)))
            (ofZ 2)
      else at_index sorted (length sorted / 2) in
    Stats.mk (Some min) (Some max) (Some mean) (Some median).

(** ** types.ts *)

(** A rate or percentage: the [number] that comes out of a division of
    counts, whose divisor may be zero.  It is a rational, or one of [NaN],
    [Infinity] and [-Infinity]. *)
Inductive Rate :=
| Finite (q : Q)
| NotFinite.

Inductive ItemType := issue | pr.

#[global] Instance ItemType_eq_dec : EqDecision ItemType.
Proof. solve_decision. Defined.

Module IssueData.
Record t {N : Type} := mk
    { repository : string;
      number : Z;
      title : string;
      createdAt : Z;
      firstResponseAt : option Z;
      responseTimeHours : option N;
      respondedBy : option string;
      reportedBy : option string;
      respondedWithinOneDay : bool;
      weekStarting : Z;
      url : string;
      type : ItemType }.
Arguments t : clear implicits.
Arguments mk {N}.
End IssueData.

Module WeeklySummary.
Record t := mk
    { weekStarting : Z;
      totalIssues : nat;
      respondedWithinOneDay : nat;
      percentage : Rate }.
End WeeklySummary.

Module OverallMetrics.
Record t {N : Type} := mk
    { totalIssues : nat;
      totalPRs : nat;
      issuesResponded : nat;
      prsResponded : nat;
      issuesWithinOneDay : nat;
      prsWithinOneDay : nat;
      issueResponseRate : Rate;
      prResponseRate : Rate;
      issueOneDayPercentage : Rate;
      prOneDayPercentage : Rate;
      minResponseTimeHours : option N;
      maxResponseTimeHours : option N;
      meanResponseTimeHours : option N;
      medianResponseTimeHours : option N }.
Arguments t : clear implicits.
Arguments mk {N}.
End OverallMetrics.

(** ** metrics.ts *)

(** A count as a rational. *)
Definition num (n : nat) : Q := inject_Z (Z.of_nat n).

(** [x !== null] *)
Definition notNull {A} (x : option A) : bool :=
  match x with Some _ => true | None => false end.

(** [a / b] and [x * c] where [b] may be zero. *)
Definition divNum (a b : Q) : Rate :=
  if Qeq_bool b 0 then NotFinite else Finite (a / b).

Definition mulNum (x : Rate) (c : Q) : Rate :=
  match x with
  | Finite q => Finite (q * c)
  | NotFinite => NotFinite
  end.

(** [count > 0 ? (part / count) * 100 : 0] *)
Definition percentOf (part count : nat) : Rate :=
  if (0 <? count)%nat then mulNum (divNum (num part) (num count)) 100
  else Finite 0.

Definition calculateOverallMetrics {N} `{Number N} (data : list (IssueData.t N))
  : OverallMetrics.t N :=
  let issues :=
    List.filter (fun d => bool_decide (IssueData.type d = issue)) data in
  let prs :=
    List.filter (fun d => bool_decide (IssueData.type d = pr)) data in
  let issuesResponded :=
    length (List.filter (fun d => notNull (IssueData.firstResponseAt d)) issues) in
  let prsResponded :=
    length (List.filter (fun d => notNull (IssueData.firstResponseAt d)) prs) in
  let issuesWithinOneDay :=
    length (List.filter IssueData.respondedWithinOneDay issues) in
  let prsWithinOneDay :=
    length (List.filter IssueData.respondedWithinOneDay prs) in
  let issueResponseRate := percentOf issuesResponded (length issues) in
  let prResponseRate := percentOf prsResponded (length prs) in
  let issueOneDayPercentage := percentOf issuesWithinOneDay (length issues) in
  let prOneDayPercentage := percentOf prsWithinOneDay (length prs) in
  let responseTimes :=
    List.map (fun d => default (ofZ 0) (IssueData.responseTimeHours d))
      (List.filter (fun d => notNull (IssueData.responseTimeHours d)) data) in
  let stats := calculateStats responseTimes in
  {| OverallMetrics.totalIssues := length issues;
     OverallMetrics.totalPRs := length prs;
     OverallMetrics.issuesResponded := issuesResponded;
     OverallMetrics.prsResponded := prsResponded;
     OverallMetrics.issuesWithinOneDay := issuesWithinOneDay;
     OverallMetrics.prsWithinOneDay := prsWithinOneDay;
     OverallMetrics.issueResponseRate := issueResponseRate;
     OverallMetrics.prResponseRate := prResponseRate;
     OverallMetrics.issueOneDayPercentage := issueOneDayPercentage;
     OverallMetrics.prOneDayPercentage := prOneDayPercentage;
     OverallMetrics.minResponseTimeHours := Stats.min stats;
     OverallMetrics.maxResponseTimeHours := Stats.max stats;
     OverallMetrics.meanResponseTimeHours := Stats.mean stats;
     OverallMetrics.medianResponseTimeHours := Stats.median stats |}.

(** The value type of [weeklyMap]. *)
Record WeekData := { total : nat; withinOneDay : nat }.

(** [Map<string, WeekData>], entries in insertion order.  The key is
    [weekStarting.toISOString()]; on valid dates that string determines the
    time value and [new Date(weekKey)] gives it back, so the time value is
    the key. *)
Definition WeeklyMap := list (Z * WeekData).

Fixpoint map_get (weekKey : Z) (m : WeeklyMap) : option WeekData :=
  match m with
  | [] => None
  | (k, v) :: rest => if k =? weekKey then Some v else map_get weekKey rest
  end.

Definition map_has (weekKey : Z) (m : WeeklyMap) : bool :=
  notNull (map_get weekKey m).

(** [m.set(k, v)]: a present key keeps its position, a new one goes last. *)
Fixpoint map_set (weekKey : Z) (v : WeekData) (m : WeeklyMap) : WeeklyMap :=
  match m with
  | [] => [(weekKey, v)]
  | (k, v0) :: rest =>
      if k =? weekKey then (k, v) :: rest
      else (k, v0) :: map_set weekKey v rest
  end.

(** A field update made through the reference [m.get(k)] returned: the
    object stored in the map changes in place. *)
Fixpoint map_modify (weekKey : Z) (f : WeekData -> WeekData) (m : WeeklyMap)
  : WeeklyMap :=
  match m with
  | [] => []
  | (k, v) :: rest =>
      if k =? weekKey then (k, f v) :: rest
      else (k, v) :: map_modify weekKey f rest
  end.

(** The body of [for (const item of data)]. *)
Definition weeklyStep {N} (weeklyMap : WeeklyMap) (item : IssueData.t N)
  : WeeklyMap :=
  let weekKey := IssueData.weekStarting item in
  let weeklyMap :=
    if negb (map_has weekKey weeklyMap)
    then map_set weekKey {| total := 0; withinOneDay := 0 |} weeklyMap
    else weeklyMap in
  let weeklyMap :=
    map_modify weekKey
      (fun weekData => {| total := S (total weekData);
                          withinOneDay := withinOneDay weekData |})
      weeklyMap in
  if IssueData.respondedWithinOneDay item then
    map_modify weekKey
      (fun weekData => {| total := total weekData;
                          withinOneDay := S (withinOneDay weekData) |})
      weeklyMap
  else weeklyMap.

Definition toSummary (entry : Z * WeekData) : WeeklySummary.t :=
  let '(weekKey, data) := entry in
  {| WeeklySummary.weekStarting := weekKey;
     WeeklySummary.totalIssues := total data;
     WeeklySummary.respondedWithinOneDay := withinOneDay data;
     WeeklySummary.percentage := percentOf (withinOneDay data) (total data) |}.

(** The comparator [a.weekStarting.getTime() - b.weekStarting.getTime()]. *)
Definition weekLe (a b : WeeklySummary.t) : Prop :=
  WeeklySummary.weekStarting a <= WeeklySummary.weekStarting b.

#[global] Instance weekLe_dec a b : Decision (weekLe a b).
Proof. unfold weekLe. apply _. Defined.

Definition calculateWeeklySummary {N} (data : list (IssueData.t N))
  : list WeeklySummary.t :=
  let weeklyMap := fold_left weeklyStep data [] in
  merge_sort weekLe (List.map toSummary weeklyMap).

(** ** github.ts: the remote API and thrown errors *)

(** The outcome of an awaited call: a value, or a thrown [Error] with its
    [message]. *)
Inductive Result (A : Type) : Type :=
| Ok (value : A)
| Throw (message : string).
Arguments Ok {A} value.
Arguments Throw {A} message.

#[global] Instance Result_ret : MRet Result := fun A x => Ok x.
#[global] Instance Result_bind : MBind Result := fun A B f m =>
  match m with
  | Ok x => f x
  | Throw message => Throw message
  end.

(** [try { body } catch (error) { handler(error.message) }] *)
Definition tryCatch {A} (body : Result A) (handler : string -> Result A)
  : Result A :=
  match body with
  | Ok x => Ok x
  | Throw message => handler message
  end.

(** [Promise.all]: the results in input order when every promise is
    fulfilled, a rejection otherwise.  Of several rejections the model keeps
    the first in input order. *)
Fixpoint promiseAll {A} (promises : list (Result A)) : Result (list A) :=
  match promises with
  | [] => Ok []
  | p :: rest => x ← p; xs ← promiseAll rest; Ok (x :: xs)
  end.

(** [haystack.includes(needle)] *)
Fixpoint includes (needle haystack : string) : bool :=
  String.prefix needle haystack
  || match haystack with
     | EmptyString => false
     | String _ rest => includes needle rest
     end.

(** [error.message && error.message.includes('rate limit')] *)
Definition isRateLimitMessage (message : string) : bool :=
  negb (String.eqb message "") && includes "rate limit" message.

(** [login] of an optional [user]; [None] when the user is missing. *)
Definition Login := option string.

(** The truthiness test [author && ...] on a login, and [login || null]. *)
Definition truthy (login : Login) : option string :=
  match login with
  | Some s => if String.eqb s "" then None else Some s
  | None => None
  end.

(** An entry of a search result.  [pull_request] is whether the property is
    present. *)
Record SearchItem := mkSearchItem
  { item_number : Z;
    item_title : string;
    item_user : Login;
    item_created_at : Z;
    item_html_url : string;
    item_pull_request : bool;
    item_state : string }.

(** An issue comment or a review comment. *)
Record Comment := mkComment { comment_user : Login; comment_created_at : Z }.

Record Review := mkReview
  { review_user : Login; review_submitted_at : option Z }.

(** The fields of [pulls.get(...).data] the code reads; [merged_by] is
    [merged_by?.login]. *)
Record PullDetails := mkPullDetails
  { merged_at : option Z; merged_by : Login }.

(** The calls made through [this.octokit], for a fixed organization.  The
    search takes the repository, the [is:issue] / [is:pr] qualifier and the
    two ends of the [created:] range; the three event lists are the single
    page of at most ten entries the code asks for. *)
Record Octokit := mkOctokit
  { orgs_listMembers : Result (list string);
    teams_listMembersInOrg : string -> Result (list string);
    search_issuesAndPullRequests :
      string -> ItemType -> Z -> Z -> Result (list SearchItem);
    pulls_get : string -> Z -> Result PullDetails;
    issues_listComments : string -> Z -> Result (list Comment);
    pulls_listReviewComments : string -> Z -> Result (list Comment);
    pulls_listReviews : string -> Z -> Result (list Review) }.

(** ** github.ts: class GitHubAnalytics *)

Record GitHubAnalytics := mkGitHubAnalytics
  { octokit : Octokit;
    orgMembers : gset string;
    excludedUsers : gset string }.

(** The constructor. *)
Definition newGitHubAnalytics (api : Octokit) : GitHubAnalytics :=
  {| octokit := api; orgMembers := ∅; excludedUsers := ∅ |}.

Definition fetchOrgMembers (this : GitHubAnalytics) : Result GitHubAnalytics :=
  tryCatch
    (members ← orgs_listMembers (octokit this);
     Ok {| octokit := octokit this;
           orgMembers := list_to_set members;
           excludedUsers := excludedUsers this |})
    (fun message => Throw ("Failed to fetch org members: " +:+ message)).

Definition isOrgMember (this : GitHubAnalytics) (username : string) : bool :=
  bool_decide (username ∈ orgMembers this).

(** [xs.forEach(x => set.add(x))] *)
Definition addAll (xs : list string) (set : gset string) : gset string :=
  fold_left (fun acc x => acc ∪ {[ x ]}) xs set.

(** A failed team fetch is caught inside the loop: the team adds nothing. *)
Definition buildExcludeList (this : GitHubAnalytics)
    (excludeTeams excludeBots : list string) : GitHubAnalytics :=
  let excluded := addAll excludeBots (excludedUsers this) in
  let excluded :=
    if (length excludeTeams =? 0)%nat then excluded
    else
      fold_left
        (fun acc teamSlug =>
           match teams_listMembersInOrg (octokit this) teamSlug with
           | Ok members => addAll members acc
           | Throw _ => acc
           end)
        excludeTeams excluded in
  {| octokit := octokit this;
     orgMembers := orgMembers this;
     excludedUsers := excluded |}.

Definition isExcludedUser (this : GitHubAnalytics) (username : string) : bool :=
  bool_decide (username ∈ excludedUsers this).

(** An element of [allResponses]. *)
Record ResponseEvent := mkResponseEvent { date : Z; author : string }.

(** What [findFirstOrgResponse] resolves to when it is not [null]. *)
Record FirstResponse := mkFirstResponse
  { respondedAt : Z; respondedBy : string }.

(** [for (const comment of comments.data) { ... allResponses.push(...) }],
    used for issue comments and for review comments. *)
Definition pushComments (this : GitHubAnalytics) (comments : list Comment)
    (allResponses : list ResponseEvent) : list ResponseEvent :=
  fold_left
    (fun allResponses comment =>
       match truthy (comment_user comment) with
       | Some author =>
           if isOrgMember this author
           then allResponses ++ [mkResponseEvent (comment_created_at comment) author]
           else allResponses
       | None => allResponses
       end)
    comments allResponses.

(** [for (const review of reviews.data) { ... }] *)
Definition pushReviews (this : GitHubAnalytics) (reviews : list Review)
    (allResponses : list ResponseEvent) : list ResponseEvent :=
  fold_left
    (fun allResponses review =>
       match truthy (review_user review), review_submitted_at review with
       | Some author, Some submitted_at =>
           if isOrgMember this author
           then allResponses ++ [mkResponseEvent submitted_at author]
           else allResponses
       | _, _ => allResponses
       end)
    reviews allResponses.

(** [if (prDetails?.merged_at && prDetails?.merged_by?.login) { ... }] *)
Definition pushMerge (this : GitHubAnalytics) (prDetails : option PullDetails)
    (allResponses : list ResponseEvent) : list ResponseEvent :=
  match prDetails with
  | Some details =>
      match merged_at details, truthy (merged_by details) with
      | Some mergedAt, Some mergedBy =>
          if isOrgMember this mergedBy
          then allResponses ++ [mkResponseEvent mergedAt mergedBy]
          else allResponses
      | _, _ => allResponses
      end
  | None => allResponses
  end.

(** [allResponses.reduce((min, curr) => curr.date < min.date ? curr : min)]
    on a non-empty array: the first element starts as [min]. *)
Definition reduceEarliest (first : ResponseEvent) (rest : list ResponseEvent)
  : ResponseEvent :=
  fold_left (fun min curr => if date curr <? date min then curr else min)
            rest first.

(** The loop over the comments of an issue, with its early [return]. *)
Fixpoint firstOrgComment (this : GitHubAnalytics) (comments : list Comment)
  : option FirstResponse :=
  match comments with
  | [] => None
  | comment :: rest =>
      match truthy (comment_user comment) with
      | Some author =>
          if isOrgMember this author
          then Some (mkFirstResponse (comment_created_at comment) author)
          else firstOrgComment this rest
      | None => firstOrgComment this rest
      end
  end.

(** The body of the [try] block of [findFirstOrgResponse]. *)
Definition findFirstOrgResponse_try (this : GitHubAnalytics) (repo : string)
    (issueNumber : Z) (type : ItemType) (prDetails : option PullDetails)
  : Result (option FirstResponse) :=
  match type with
  | pr =>
      comments ← issues_listComments (octokit this) repo issueNumber;
      reviewComments ← pulls_listReviewComments (octokit this) repo issueNumber;
      reviews ← pulls_listReviews (octokit this) repo issueNumber;
      let allResponses := [] in
      let allResponses := pushComments this comments allResponses in
      let allResponses := pushComments this reviewComments allResponses in
      let allResponses := pushReviews this reviews allResponses in
      let allResponses := pushMerge this prDetails allResponses in
      match allResponses with
      | [] => Ok None
      | first :: rest =>
          let earliest := reduceEarliest first rest in
          Ok (Some (mkFirstResponse (date earliest) (author earliest)))
      end
  | issue =>
      response ← issues_listComments (octokit this) repo issueNumber;
      Ok (firstOrgComment this response)
  end.

(** [catch (error) { console.error(...); return null; }]: every error of
    the lookup, whatever its message, ends here. *)
Definition findFirstOrgResponse (this : GitHubAnalytics) (repo : string)
    (issueNumber : Z) (type : ItemType) (prDetails : option PullDetails)
  : option FirstResponse :=
  match findFirstOrgResponse_try this repo issueNumber type prDetails with
  | Ok firstResponse => firstResponse
  | Throw _ => None
  end.

(** The record that [fetchIssues] pushes and [processPullRequest] returns;
    the two places build it with the same expressions. *)
Definition toIssueData {N} `{Number N} (tz : Z) (repo : string)
    (item : SearchItem) (type : ItemType) (firstResponse : option FirstResponse)
  : IssueData.t N :=
  let createdAt := item_created_at item in
  let responseTimeHours : option N :=
    match firstResponse with
    | Some r => Some (calculateWorkingHours tz createdAt (respondedAt r))
    | None => None
    end in
  let respondedWithinOneDay :=
    match firstResponse with
    | Some r => isWithinOneWorkingDay (N := N) tz createdAt (respondedAt r)
    | None => false
    end in
  {| IssueData.repository := repo;
     IssueData.number := item_number item;
     IssueData.title := item_title item;
     IssueData.createdAt := createdAt;
     IssueData.firstResponseAt := respondedAt <$> firstResponse;
     IssueData.responseTimeHours := responseTimeHours;
     IssueData.respondedBy := firstResponse ≫= (fun r => truthy (Some (respondedBy r)));
     IssueData.reportedBy := truthy (item_user item);
     IssueData.respondedWithinOneDay := respondedWithinOneDay;
     IssueData.weekStarting := getWeekStart tz createdAt;
     IssueData.url := item_html_url item;
     IssueData.type := type |}.

(** The body of [for (const issue of searchResults)] in [fetchIssues]. *)
Definition issueStep {N} `{Number N} (tz : Z) (this : GitHubAnalytics)
    (repo : string) (issues : list (IssueData.t N)) (item : SearchItem)
  : list (IssueData.t N) :=
  if item_pull_request item then issues
  else
    let author := default "" (item_user item) in
    if isExcludedUser this author then issues
    else
      let firstResponse :=
        findFirstOrgResponse this repo (item_number item) issue None in
      issues ++ [toIssueData tz repo item issue firstResponse].

Definition fetchIssues {N} `{Number N} (tz : Z) (this : GitHubAnalytics)
    (repo : string) (startDate endDate : Z) : Result (list (IssueData.t N)) :=
  tryCatch
    (searchResults ←
       search_issuesAndPullRequests (octokit this) repo issue startDate endDate;
     Ok (fold_left (issueStep tz this repo) searchResults []))
    (fun message =>
       (* a rate-limit message is logged in detail first *)
       Throw ("Failed to fetch issues for " +:+ repo +:+ ": " +:+ message)).

Definition processPullRequest {N} `{Number N} (tz : Z) (this : GitHubAnalytics)
    (repo : string) (item : SearchItem) : Result (option (IssueData.t N)) :=
  tryCatch
    (let author := default "" (item_user item) in
     if isExcludedUser this author then Ok None
     else
       prDetails ←
         (if String.eqb (item_state item) "closed"
          then details ← pulls_get (octokit this) repo (item_number item);
               Ok (Some details)
          else Ok None);
       let firstResponse :=
         findFirstOrgResponse this repo (item_number item) pr prDetails in
       Ok (Some (toIssueData tz repo item pr firstResponse)))
    (fun message =>
       if isRateLimitMessage message then Throw message
       else Ok None).

Definition BATCH_SIZE : nat := 10.

(** [array.slice(i, j)] for [i <= j]. *)
Definition slice {A} (i j : nat) (l : list A) : list A :=
  take (j - i)%nat (drop i l).

(** [results.filter(pr => pr !== null)] *)
Definition nonNull {A} (results : list (option A)) : list A :=
  omap id results.

(** [for (let i = 0; i < pullRequests.length; i += BATCH_SIZE) { ... }],
    from the index [i] on. *)
Equations? batchLoop {N} `{Number N} (tz : Z) (this : GitHubAnalytics)
    (repo : string) (pullRequests : list SearchItem) (i : nat)
    (prs : list (IssueData.t N))
  : Result (list (IssueData.t N))
  by wf (length pullRequests - i)%nat lt :=
  batchLoop tz this repo pullRequests i prs
    with lt_dec i (length pullRequests) => {
    | left _ =>
        let batch := slice i (i + BATCH_SIZE) pullRequests in
        match promiseAll (List.map (processPullRequest tz this repo) batch) with
        | Ok results =>
            batchLoop tz this repo pullRequests (i + BATCH_SIZE)%nat
                      (prs ++ nonNull results)
        | Throw message => Throw message
        end
    | right _ => Ok prs }.
Proof. unfold BATCH_SIZE. lia. Qed.

Definition fetchPullRequests {N} `{Number N} (tz : Z) (this : GitHubAnalytics)
    (repo : string) (startDate endDate : Z) : Result (list (IssueData.t N)) :=
  tryCatch
    (searchResults ←
       search_issuesAndPullRequests (octokit this) repo pr startDate endDate;
     let pullRequests := List.filter item_pull_request searchResults in
     batchLoop tz this repo pullRequests 0 [])
    (fun message =>
       (* a rate-limit message is logged in detail first *)
       Throw ("Failed to fetch PRs for " +:+ repo +:+ ": " +:+ message)).

(** [for (const repo of repositories) { ... allData.push(...issues, ...prs) }] *)
Fixpoint fetchAllData_from {N} `{Number N} (tz : Z) (this : GitHubAnalytics)
    (repositories : list string) (startDate endDate : Z)
    (allData : list (IssueData.t N)) : Result (list (IssueData.t N)) :=
  match repositories with
  | [] => Ok allData
  | repo :: rest =>
      issues ← fetchIssues tz this repo startDate endDate;
      prs ← fetchPullRequests tz this repo startDate endDate;
      fetchAllData_from tz this rest startDate endDate (allData ++ issues ++ prs)
  end.

Definition fetchAllData {N} `{Number N} (tz : Z) (this : GitHubAnalytics)
    (repositories : list string) (startDate endDate : Z)
  : Result (list (IssueData.t N)) :=
  fetchAllData_from tz this repositories startDate endDate [].

(** ** index.ts *)

(** The configuration file once read; a missing field is [None] or empty. *)
Record Config := mkConfig
  { githubToken : option string;
    organization : string;
    repositories : list string;
    excludeTeams : list string;
    excludeBots : list string }.

(** What the three aggregates show and what [saveCSV] writes. *)
Record Report {N : Type} := mkReport
  { reportData : list (IssueData.t N);
    reportMetrics : OverallMetrics.t N;
    reportWeekly : list WeeklySummary.t }.
Arguments Report : clear implicits.
Arguments mkReport {N}.

(** How a run ends: the exit status, the message of the error that ended it
    (printed after the error mark), whether the notice for an exhausted
    request quota was printed with it, and the report when one was made. *)
Record RunOutcome {N : Type} := mkRunOutcome
  { exitCode : Z;
    errorMessage : option string;
    rateLimitNotice : bool;
    report : option (Report N) }.
Arguments RunOutcome : clear implicits.
Arguments mkRunOutcome {N}.

(** [main], from the validation of the configuration on.  Reading the
    arguments and the file, the console and the CSV file are outside the
    model; [checkRateLimit] catches its own errors and changes nothing. *)
Definition main {N} `{Number N} (tz : Z) (api : Octokit) (config : Config)
    (startDate endDate : Z) : RunOutcome N :=
  if negb (notNull (truthy (githubToken config)))
     || String.eqb (organization config) ""
     || (length (repositories config) =? 0)%nat
  then mkRunOutcome 1 None false None
  else
    let body : Result (RunOutcome N) :=
      let analytics := newGitHubAnalytics api in
      analytics ← fetchOrgMembers analytics;
      let analytics :=
        buildExcludeList analytics (excludeTeams config) (excludeBots config) in
      data ← fetchAllData tz analytics (repositories config) startDate endDate;
      if (length data =? 0)%nat then Ok (mkRunOutcome 0 None false None)
      else
        let metrics := calculateOverallMetrics data in
        let weeklySummary := calculateWeeklySummary data in
        Ok (mkRunOutcome 0 None false
              (Some (mkReport data metrics weeklySummary))) in
    match body with
    | Ok outcome => outcome
    | Throw message =>
        mkRunOutcome 1 (Some message) (includes "rate limit" message) None
    end.

(** ** Vocabulary of the statements *)

(** Saturday (6) or Sunday (0). *)
Definition isWeekend (dayOfWeek : Z) : bool :=
  (dayOfWeek =? 0) || (dayOfWeek =? 6).

(** Every instant of [a, b) falls on a Monday-to-Friday local day. *)
Definition weekdaysOn (tz a b : Z) : Prop :=
  forall t, a <= t < b -> isWeekend (getDay tz t) = false.

(** An instant is a local midnight when clearing its time of day leaves it
    unchanged. *)
Definition isMidnight (tz m : Z) : Prop := startOfDay tz m = m.

(** Sample instants, in UTC; 1 January 2024 was a Monday. *)
Definition monday_9h : Z := 1704099600000.     (* 2024-01-01T09:00:00Z *)
Definition monday_9h05 : Z := 1704099900000.   (* 2024-01-01T09:05:00Z *)
Definition monday_23h54 : Z := 1704153240000.  (* 2024-01-01T23:54:00Z *)
Definition tuesday_0h12 : Z := 1704154320000.  (* 2024-01-02T00:12:00Z *)
Definition tuesday_11h : Z := 1704193200000.   (* 2024-01-02T11:00:00Z *)
Definition wednesday_15h : Z := 1704294000000. (* 2024-01-03T15:00:00Z *)
Definition friday_17h : Z := 1704474000000.    (* 2024-01-05T17:00:00Z *)
Definition saturday_0h : Z := 1704499200000.   (* 2024-01-06T00:00:00Z *)
Definition monday_10h : Z := 1704708000000.    (* 2024-01-08T10:00:00Z *)





(** The number of records of a week, and of those answered within one
    working day. *)
Definition countWeek {N} (weekKey : Z) (data : list (IssueData.t N)) : nat :=
  length (List.filter (fun r => IssueData.weekStarting r =? weekKey) data).

Definition countWeekWithin {N} (weekKey : Z) (data : list (IssueData.t N))
  : nat :=
  length
    (List.filter
       (fun r => (IssueData.weekStarting r =? weekKey)
                 && IssueData.respondedWithinOneDay r)
       data).

(** Strictly ascending week starts. *)
Definition weekLt (a b : WeeklySummary.t) : Prop :=
  WeeklySummary.weekStarting a < WeeklySummary.weekStarting b.





(** The two invariants of a record: answered within one working day exactly
    when there is a first response and the working hours up to it, which the
    record holds as its response time, are at most 24; no response time
    exactly when there is no first response. *)
Definition recordInvariant {N} `{Number N} (tz : Z) (r : IssueData.t N) : Prop :=
  (IssueData.respondedWithinOneDay r = true
   <-> exists t,
         IssueData.firstResponseAt r = Some t
         /\ IssueData.responseTimeHours r
            = Some (calculateWorkingHours tz (IssueData.createdAt r) t)
         /\ leb (calculateWorkingHours (N := N) tz (IssueData.createdAt r) t)
                (ofZ 24) = true)
  /\ (IssueData.responseTimeHours r = None
      <-> IssueData.firstResponseAt r = None).

(** A small organization: [maintainer] and [reviewer] are members,
    [insider] is in the excluded team, [ci-bot] is listed as a bot, and
    [visitor] is an outsider. *)

Definition sampleComments : list Comment :=
  [mkComment (Some "visitor") monday_9h05;
   mkComment (Some "maintainer") wednesday_15h].

Definition sampleReviews : list Review :=
  [mkReview (Some "reviewer") None;
   mkReview (Some "reviewer") (Some tuesday_11h)].

Definition sampleDetails : PullDetails :=
  mkPullDetails (Some friday_17h) (Some "maintainer").

Definition sampleApi : Octokit :=
  {| orgs_listMembers := Ok ["maintainer"; "reviewer"];
     teams_listMembersInOrg := fun teamSlug =>
       if String.eqb teamSlug "flow-team" then Ok ["insider"]
       else Throw "Not Found";
     search_issuesAndPullRequests := fun repo type startDate endDate =>
       match type with
       | issue =>
           Ok [mkSearchItem 7 "Grid loses selection" (Some "visitor")
                 monday_9h "https://example.org/flow/issues/7" false "open";
               mkSearchItem 8 "Bump version" (Some "insider")
                 monday_9h "https://example.org/flow/issues/8" false "closed"]
       | pr =>
           Ok [mkSearchItem 12 "Fix selection" (Some "visitor")
                 monday_9h "https://example.org/flow/pull/12" true "closed"]
       end;
     pulls_get := fun repo pull_number => Ok sampleDetails;
     issues_listComments := fun repo issue_number =>
       if issue_number =? 7 then Ok sampleComments else Ok [];
     pulls_listReviewComments := fun repo pull_number => Ok [];
     pulls_listReviews := fun repo pull_number => Ok sampleReviews |}.

Definition sampleAnalytics : GitHubAnalytics :=
  buildExcludeList
    {| octokit := sampleApi;
       orgMembers := list_to_set ["maintainer"; "reviewer"];
       excludedUsers := ∅ |}
    ["flow-team"] ["ci-bot"].

Definition sampleConfig : Config :=
  mkConfig (Some "token") "example-org" ["flow"] ["flow-team"] ["ci-bot"].

(** An organization whose member [ci-bot] greets every new issue, and which
    lists it under [excludeBots]. *)
Definition botComments : list Comment :=
  [mkComment (Some "ci-bot") monday_9h05;
   mkComment (Some "maintainer") wednesday_15h].

Definition botApi : Octokit :=
  {| orgs_listMembers := Ok ["maintainer"; "ci-bot"];
     teams_listMembersInOrg := fun teamSlug => Throw "Not Found";
     search_issuesAndPullRequests := fun repo type startDate endDate =>
       match type with
       | issue =>
           Ok [mkSearchItem 21 "Upload fails" (Some "visitor")
                 monday_9h "https://example.org/flow/issues/21" false "open";
               mkSearchItem 22 "Nightly report" (Some "ci-bot")
                 monday_9h "https://example.org/flow/issues/22" false "open"]
       | pr => Ok []
       end;
     pulls_get := fun repo pull_number => Throw "Not Found";
     issues_listComments := fun repo issue_number =>
       if issue_number =? 21 then Ok botComments else Ok [];
     pulls_listReviewComments := fun repo pull_number => Ok [];
     pulls_listReviews := fun repo pull_number => Ok [] |}.

Definition botAnalytics : GitHubAnalytics :=
  buildExcludeList
    {| octokit := botApi;
       orgMembers := list_to_set ["maintainer"; "ci-bot"];
       excludedUsers := ∅ |}
    [] ["ci-bot"].

(** The message of the remote service when the request quota is used up,
    and three copies of [sampleApi] in which one call fails with it: the
    comment lookup, the search, the detail fetch of a pull request. *)
Definition quotaMessage : string :=
  "API rate limit exceeded for user ID 4711.".

Definition commentsLimitedApi : Octokit :=
  {| orgs_listMembers := orgs_listMembers sampleApi;
     teams_listMembersInOrg := teams_listMembersInOrg sampleApi;
     search_issuesAndPullRequests := search_issuesAndPullRequests sampleApi;
     pulls_get := pulls_get sampleApi;
     issues_listComments := fun repo issue_number => Throw quotaMessage;
     pulls_listReviewComments := pulls_listReviewComments sampleApi;
     pulls_listReviews := pulls_listReviews sampleApi |}.

Definition searchLimitedApi : Octokit :=
  {| orgs_listMembers := orgs_listMembers sampleApi;
     teams_listMembersInOrg := teams_listMembersInOrg sampleApi;
     search_issuesAndPullRequests := fun repo type startDate endDate =>
       Throw quotaMessage;
     pulls_get := pulls_get sampleApi;
     issues_listComments := issues_listComments sampleApi;
     pulls_listReviewComments := pulls_listReviewComments sampleApi;
     pulls_listReviews := pulls_listReviews sampleApi |}.

Definition detailLimitedApi : Octokit :=
  {| orgs_listMembers := orgs_listMembers sampleApi;
     teams_listMembersInOrg := teams_listMembersInOrg sampleApi;
     search_issuesAndPullRequests := search_issuesAndPullRequests sampleApi;
     pulls_get := fun repo pull_number => Throw quotaMessage;
     issues_listComments := issues_listComments sampleApi;
     pulls_listReviewComments := pulls_listReviewComments sampleApi;
     pulls_listReviews := pulls_listReviews sampleApi |}.

(** The invariant of the loop of [calculateWeeklySummary]: once the records
    [done] are processed, the map has one entry per week that occurs in
    them, with the two counts of that week. *)
Definition weekEntry {N} (k : Z) (done : list (IssueData.t N))
  : option WeekData :=
  if (countWeek k done =? 0)%nat then None
  else Some {| total := countWeek k done; withinOneDay := countWeekWithin k done |}.

Definition weeklyInv {N} (m : WeeklyMap) (done : list (IssueData.t N)) : Prop :=
  NoDup (List.map fst m) /\ forall k, map_get k m = weekEntry k done.

(** The sum of the [total] fields of a map. *)
Definition sumTotals (m : WeeklyMap) : nat :=
  list_sum (List.map (fun entry => total (snd entry)) m).

(** * Properties *)

(** ** Calendar arithmetic *)

Lemma msPerDay_eq : msPerDay = 86400000.
Proof. reflexivity. Qed.

Lemma localDay_bounds tz t :
  localDay tz t * msPerDay <= t + tz < (localDay tz t + 1) * msPerDay.
Proof.
  unfold localDay. rewrite msPerDay_eq.
  Z.to_euclidean_division_equations. lia.
Qed.

Lemma localDay_unique tz t d :
  d * msPerDay <= t + tz < (d + 1) * msPerDay -> localDay tz t = d.
Proof.
  unfold localDay. rewrite msPerDay_eq. intros H.
  Z.to_euclidean_division_equations. lia.
Qed.

Lemma startOfDay_bounds tz t :
  startOfDay tz t <= t < startOfDay tz t + msPerDay.
Proof. pose proof (localDay_bounds tz t). unfold startOfDay. lia. Qed.

Lemma nextMidnight_eq tz t : nextMidnight tz t = startOfDay tz t + msPerDay.
Proof.
  unfold nextMidnight, startOfDay, addDays.
  rewrite (localDay_unique tz (t + 1 * msPerDay) (localDay tz t + 1)).
  - lia.
  - pose proof (localDay_bounds tz t). lia.
Qed.

Lemma localDay_nextMidnight tz t :
  localDay tz (nextMidnight tz t) = localDay tz t + 1.
Proof.
  apply localDay_unique. rewrite nextMidnight_eq. unfold startOfDay.
  rewrite msPerDay_eq. lia.
Qed.

Lemma workingLoop_step {N} `{Number N} tz c e (h : N) :
  workingLoop tz c e h =
  if c <? e then workingLoop tz (nextMidnight tz c) e (addPeriod tz c e h)
  else h.
Proof.
  rewrite workingLoop_equation_1.
  destruct (Z_lt_dec c e) as [Hlt | Hge]; simpl.
  - rewrite (proj2 (Z.ltb_lt c e) Hlt). reflexivity.
  - rewrite (proj2 (Z.ltb_ge c e)) by lia. reflexivity.
Qed.

(** In exact arithmetic [hoursBetween] is the quotient of rationals. *)
Lemma hoursBetween_exact a b :
  hoursBetween (N := Q) a b = (inject_Z (b - a) / inject_Z msPerHour)%Q.
Proof. reflexivity. Qed.

Lemma hoursBetween_refl a : (hoursBetween a a == 0)%Q.
Proof. rewrite hoursBetween_exact, Z.sub_diag. reflexivity. Qed.

Lemma hoursBetween_add a b c :
  (hoursBetween a b + hoursBetween b c == hoursBetween a c)%Q.
Proof.
  rewrite !hoursBetween_exact.
  replace (c - a) with ((b - a) + (c - b)) by lia.
  rewrite inject_Z_plus. field. discriminate.
Qed.

Lemma addPeriod_weekday {N} `{Number N} tz c e (h : N) :
  isWeekend (getDay tz c) = false ->
  addPeriod tz c e h =
  add h (hoursBetween c (if nextMidnight tz c <? e then nextMidnight tz c else e)).
Proof.
  unfold addPeriod, isWeekend. intros Hday.
  apply orb_false_elim in Hday as [-> ->]. reflexivity.
Qed.

Lemma addPeriod_weekend {N} `{Number N} tz c e (h : N) :
  isWeekend (getDay tz c) = true -> addPeriod tz c e h = h.
Proof.
  unfold addPeriod, isWeekend. intros Hday.
  destruct (getDay tz c =? 0); [reflexivity |].
  simpl in Hday. rewrite Hday. reflexivity.
Qed.

(** In exact arithmetic a run over weekday time adds the length of the
    run. *)
Lemma workingLoop_weekdays tz n : forall c e (h : Q),
  (Z.to_nat (localDay tz e - localDay tz c + 1) <= n)%nat ->
  c <= e -> weekdaysOn tz c e ->
  (workingLoop tz c e h == h + hoursBetween c e)%Q.
Proof.
  induction n as [| n IH]; intros c e h Hn Hce Hwd.
  - assert (localDay tz c <= localDay tz e).
    { pose proof (localDay_bounds tz c). pose proof (localDay_bounds tz e).
      rewrite msPerDay_eq in *. nia. }
    lia.
  - rewrite workingLoop_step.
    destruct (c <? e) eqn:Hlt.
    + apply Z.ltb_lt in Hlt.
      rewrite addPeriod_weekday by (apply Hwd; lia).
      pose proof (startOfDay_bounds tz c) as Hs.
      pose proof (nextMidnight_eq tz c) as Hnx.
      change (@add Q exact) with Qplus.
      destruct (nextMidnight tz c <? e) eqn:Hne.
      * apply Z.ltb_lt in Hne.
        rewrite IH.
        -- rewrite <- Qplus_assoc, hoursBetween_add. reflexivity.
        -- rewrite localDay_nextMidnight.
           assert (localDay tz c <= localDay tz e).
           { pose proof (localDay_bounds tz c). pose proof (localDay_bounds tz e).
             rewrite msPerDay_eq in *. nia. }
           lia.
        -- lia.
        -- intros t Ht. apply Hwd. lia.
      * apply Z.ltb_ge in Hne.
        rewrite workingLoop_step.
        rewrite (proj2 (Z.ltb_ge _ _) Hne). reflexivity.
    + apply Z.ltb_ge in Hlt. assert (c = e) by lia. subst.
      rewrite hoursBetween_refl. ring.
Qed.

Lemma localDay_mono tz a b : a <= b -> localDay tz a <= localDay tz b.
Proof.
  intros. pose proof (localDay_bounds tz a). pose proof (localDay_bounds tz b).
  rewrite msPerDay_eq in *. nia.
Qed.

Lemma nextMidnight_le_midnight tz c m :
  isMidnight tz m -> c < m -> nextMidnight tz c <= m.
Proof.
  unfold isMidnight. intros Hm Hlt.
  rewrite nextMidnight_eq. unfold startOfDay in *.
  pose proof (localDay_bounds tz c).
  assert (localDay tz c < localDay tz m) by (rewrite msPerDay_eq in *; nia).
  rewrite msPerDay_eq in *. nia.
Qed.

Lemma nextMidnight_of_midnight tz m :
  isMidnight tz m -> nextMidnight tz m = m + msPerDay.
Proof. unfold isMidnight. intros Hm. rewrite nextMidnight_eq, Hm. reflexivity. Qed.

Lemma isMidnight_shift tz m k : isMidnight tz m -> isMidnight tz (m + k * msPerDay).
Proof.
  unfold isMidnight, startOfDay. intros Hm.
  rewrite (localDay_unique tz (m + k * msPerDay) (localDay tz m + k)).
  - lia.
  - pose proof (localDay_bounds tz m). rewrite msPerDay_eq in *. lia.
Qed.

Lemma getDay_shift tz t k :
  getDay tz (t + k * msPerDay) = (getDay tz t + k) mod 7.
Proof.
  unfold getDay.
  rewrite (localDay_unique tz (t + k * msPerDay) (localDay tz t + k)).
  - rewrite Zplus_mod_idemp_l. f_equal. lia.
  - pose proof (localDay_bounds tz t). rewrite msPerDay_eq in *. lia.
Qed.

(** The loop passes through every local midnight between its start and its
    end, so a run can be cut there. *)
Lemma workingLoop_split {N} `{Number N} tz m e n : forall c (h : N),
  (Z.to_nat (localDay tz m - localDay tz c + 1) <= n)%nat ->
  isMidnight tz m -> c <= m -> m <= e ->
  workingLoop tz c e h = workingLoop tz m e (workingLoop tz c m h).
Proof.
  induction n as [| n IH]; intros c h Hn Hm Hcm Hme.
  - pose proof (localDay_mono tz c m Hcm). lia.
  - rewrite (workingLoop_step tz c m).
    destruct (c <? m) eqn:Hlt.
    + apply Z.ltb_lt in Hlt.
      pose proof (nextMidnight_le_midnight tz c m Hm Hlt) as Hnx.
      rewrite (workingLoop_step tz c e).
      rewrite (proj2 (Z.ltb_lt c e)) by lia.
      assert (Hsame : addPeriod tz c e h = addPeriod tz c m h).
      { unfold addPeriod.
        destruct (negb (getDay tz c =? 0) && negb (getDay tz c =? 6)); [| reflexivity].
        cbv zeta.
        destruct (nextMidnight tz c <? e) eqn:H1;
          destruct (nextMidnight tz c <? m) eqn:H2;
          try reflexivity.
        - apply Z.ltb_lt in H1. apply Z.ltb_ge in H2.
          replace m with (nextMidnight tz c) by lia. reflexivity.
        - apply Z.ltb_ge in H1. apply Z.ltb_lt in H2. lia.
        - apply Z.ltb_ge in H1. apply Z.ltb_ge in H2.
          replace m with e by lia. reflexivity. }
      rewrite Hsame. apply IH; try assumption; try lia.
      rewrite localDay_nextMidnight.
      pose proof (localDay_mono tz c m Hcm). lia.
    + apply Z.ltb_ge in Hlt. replace c with m by lia. reflexivity.
Qed.

(** A Saturday and the Sunday after it add nothing. *)
Lemma workingLoop_skip_weekend {N} `{Number N} tz sat e (h : N) :
  isMidnight tz sat -> getDay tz sat = 6 -> sat + 2 * msPerDay <= e ->
  workingLoop tz sat e h = workingLoop tz (sat + 2 * msPerDay) e h.
Proof.
  intros Hm Hsat He.
  assert (Hsun : isMidnight tz (sat + 1 * msPerDay)) by (apply isMidnight_shift; assumption).
  rewrite (workingLoop_step tz sat e).
  rewrite (proj2 (Z.ltb_lt sat e)) by (rewrite msPerDay_eq in *; lia).
  rewrite addPeriod_weekend by (rewrite Hsat; reflexivity).
  rewrite nextMidnight_of_midnight by assumption.
  rewrite (workingLoop_step tz (sat + msPerDay) e).
  rewrite (proj2 (Z.ltb_lt (sat + msPerDay) e)) by (rewrite msPerDay_eq in *; lia).
  rewrite addPeriod_weekend.
  - replace (sat + msPerDay) with (sat + 1 * msPerDay) by lia.
    rewrite nextMidnight_of_midnight by assumption.
    f_equal. lia.
  - replace (sat + msPerDay) with (sat + 1 * msPerDay) by lia.
    rewrite getDay_shift, Hsat. reflexivity.
Qed.

(** ** Working hours *)

(** From a weekday instant to an end no later than the next midnight the
    loop runs once and adds a single quotient, in whatever arithmetic. *)
Lemma workingLoop_one_period {N} `{Number N} tz c e (h : N) :
  c < e -> e <= nextMidnight tz c -> isWeekend (getDay tz c) = false ->
  workingLoop tz c e h = add h (hoursBetween c e).
Proof.
  intros Hlt Hnext Hwd.
  rewrite workingLoop_step, (proj2 (Z.ltb_lt _ _) Hlt).
  rewrite (addPeriod_weekday _ _ _ _ Hwd).
  rewrite (proj2 (Z.ltb_ge _ _) Hnext).
  rewrite workingLoop_step, (proj2 (Z.ltb_ge _ _) Hnext). reflexivity.
Qed.

Lemma calculateWorkingHours_same_day {N} `{Number N} tz start end_ :
  start < end_ -> localDay tz start = localDay tz end_ ->
  isWeekend (getDay tz start) = false ->
  calculateWorkingHours (N := N) tz start end_
  = add (ofZ 0) (hoursBetween start end_).
Proof.
  intros Hlt Hday Hwd. unfold calculateWorkingHours.
  rewrite (proj2 (Z.ltb_ge end_ start)) by lia. cbv zeta.
  apply workingLoop_one_period; try assumption.
  rewrite nextMidnight_eq. unfold startOfDay. rewrite Hday.
  pose proof (localDay_bounds tz end_). lia.
Qed.

(** C3, in exact arithmetic.  When [start <= end] and every instant from
    [start] to [end] falls on a Monday-to-Friday local day,
    [calculateWorkingHours], computed with exact quotients and sums, is the
    difference [end - start] in hours.  In whatever arithmetic, when
    [start < end] fall on the same day the result is the single quotient
    [(end - start) / 3600000], added to 0. *)
Theorem calculateWorkingHours_weekdays_exact {N} `{Number N} tz start end_ :
  start <= end_ ->
  (forall t, start <= t <= end_ -> isWeekend (getDay tz t) = false) ->
  (calculateWorkingHours (N := Q) tz start end_
   == inject_Z (end_ - start) / inject_Z msPerHour)%Q
  /\ (start < end_ -> localDay tz start = localDay tz end_ ->
      calculateWorkingHours (N := N) tz start end_
      = add (ofZ 0) (div (ofZ (end_ - start)) (ofZ msPerHour))).
Proof.
  intros Hle Hwd. split.
  - unfold calculateWorkingHours.
    rewrite (proj2 (Z.ltb_ge end_ start)) by lia. cbv zeta.
    rewrite (workingLoop_weekdays tz _ start end_ _ (le_n _) Hle).
    + rewrite hoursBetween_exact. change (@ofZ Q exact 0) with 0%Q. ring.
    + intros t Ht. apply Hwd. lia.
  - intros Hlt Hday. apply calculateWorkingHours_same_day; try assumption.
    apply Hwd. lia.
Qed.

(** C3, as stated, on doubles.  From Monday 23:54 to Tuesday 00:12 the loop
    adds the quotients of 6 and of 12 minutes, 0.1 + 0.2, which in binary64
    is 0.30000000000000004, while the difference of 18 minutes divided by
    the milliseconds of an hour is 0.3. *)
Lemma calculateWorkingHours_binary64_counterexample :
  monday_23h54 <= tuesday_0h12
  /\ (forall t, monday_23h54 <= t <= tuesday_0h12 ->
        isWeekend (getDay 0 t) = false)
  /\ PrimFloat.eqb
       (calculateWorkingHours (N := float) 0 monday_23h54 tuesday_0h12)
       (div (ofZ (tuesday_0h12 - monday_23h54)) (ofZ msPerHour))
     = false.
Proof.
  split; [unfold monday_23h54, tuesday_0h12; lia |].
  split; [| vm_compute; reflexivity].
  unfold monday_23h54, tuesday_0h12. intros t Ht.
  unfold isWeekend, getDay, localDay. rewrite msPerDay_eq.
  apply orb_false_intro; apply Z.eqb_neq;
    Z.to_euclidean_division_equations; lia.
Qed.

Lemma calculateWorkingHours_weekdays_exact_witness :
  (calculateWorkingHours (N := Q) 0 monday_9h wednesday_15h
   == inject_Z (wednesday_15h - monday_9h) / inject_Z msPerHour)%Q
  /\ (monday_9h < wednesday_15h ->
      localDay 0 monday_9h = localDay 0 wednesday_15h ->
      calculateWorkingHours (N := float) 0 monday_9h wednesday_15h
      = add (ofZ 0) (div (ofZ (wednesday_15h - monday_9h)) (ofZ msPerHour))).
Proof.
  apply (calculateWorkingHours_weekdays_exact (N := float) 0 monday_9h wednesday_15h).
  - unfold monday_9h, wednesday_15h. lia.
  - unfold monday_9h, wednesday_15h. intros t Ht.
    unfold isWeekend, getDay, localDay. rewrite msPerDay_eq.
    apply orb_false_intro; apply Z.eqb_neq;
      Z.to_euclidean_division_equations; lia.
Defined.

(** The loop leaves a Saturday midnight with the hours it came with and
    resumes with them on the Monday, in whatever arithmetic. *)
Lemma calculateWorkingHours_over_weekend {N} `{Number N} tz start end_ sat :
  isMidnight tz sat -> getDay tz sat = 6 ->
  start <= sat -> sat + 2 * msPerDay <= end_ ->
  calculateWorkingHours (N := N) tz start end_
  = workingLoop tz (sat + 2 * msPerDay) end_ (calculateWorkingHours tz start sat).
Proof.
  intros Hm Hsat Hs He.
  assert (Hd : 0 < msPerDay) by (rewrite msPerDay_eq; lia).
  unfold calculateWorkingHours.
  rewrite (proj2 (Z.ltb_ge end_ start)) by lia.
  rewrite (proj2 (Z.ltb_ge sat start)) by lia. cbv zeta.
  rewrite (workingLoop_split tz sat end_ _ start _ (le_n _) Hm Hs) by lia.
  apply workingLoop_skip_weekend; assumption.
Qed.

(** From 17:00 on the Friday before the Saturday midnight [sat] to 10:00 on
    the Monday after it, the loop adds the quotient of 7 hours and then the
    quotient of 10 hours, in whatever arithmetic. *)
Lemma friday_17h_to_monday_10h {N} `{Number N} tz sat :
  isMidnight tz sat -> getDay tz sat = 6 ->
  calculateWorkingHours (N := N) tz
    (sat - 7 * msPerHour) (sat + 2 * msPerDay + 10 * msPerHour)
  = add (add (ofZ 0) (div (ofZ (7 * msPerHour)) (ofZ msPerHour)))
        (div (ofZ (10 * msPerHour)) (ofZ msPerHour)).
Proof.
  intros Hm Hsat.
  assert (Hsat' : sat + tz = localDay tz sat * msPerDay)
    by (unfold isMidnight, startOfDay in Hm; lia).
  assert (Hfri : localDay tz (sat - 7 * msPerHour) = localDay tz sat - 1).
  { apply localDay_unique. rewrite msPerDay_eq in *.
    change msPerHour with 3600000. lia. }
  assert (Hmon : isMidnight tz (sat + 2 * msPerDay))
    by (apply isMidnight_shift, Hm).
  rewrite (calculateWorkingHours_over_weekend tz _ _ sat Hm Hsat);
    [| change msPerHour with 3600000; lia
     | change msPerHour with 3600000; lia ].
  rewrite workingLoop_one_period.
  - f_equal.
    + unfold calculateWorkingHours.
      rewrite (proj2 (Z.ltb_ge _ _))
        by (change msPerHour with 3600000; lia). cbv zeta.
      rewrite workingLoop_one_period.
      * unfold hoursBetween. do 3 f_equal. lia.
      * change msPerHour with 3600000. lia.
      * rewrite nextMidnight_eq. unfold startOfDay. rewrite Hfri. lia.
      * unfold isWeekend, getDay in *. rewrite Hfri.
        apply orb_false_intro; apply Z.eqb_neq;
          Z.to_euclidean_division_equations; lia.
    + unfold hoursBetween. do 2 f_equal. lia.
  - change msPerHour with 3600000. lia.
  - rewrite nextMidnight_of_midnight by exact Hmon.
    rewrite msPerDay_eq. change msPerHour with 3600000. lia.
  - rewrite getDay_shift, Hsat. reflexivity.
Qed.

(** C4.  A Saturday and Sunday between [start] and [end] add nothing.
    When weekday time only lies between [start] and the midnight [sat] that
    begins a Saturday, and between the Monday midnight [sat + 48h] and
    [end], the loop resumes on that Monday with the hours it had on
    Saturday at 00:00, in whatever arithmetic; in exact arithmetic the
    result is the difference [end - start] in hours less the 48 hours of the
    weekend.  From 17:00 on any Friday to 10:00 on the next Monday the
    result is 17, within one working day, in exact arithmetic and on
    doubles. *)
Theorem weekend_contributes_zero {N} `{Number N} tz start end_ sat :
  isMidnight tz sat -> getDay tz sat = 6 ->
  start <= sat -> weekdaysOn tz start sat ->
  sat + 2 * msPerDay <= end_ -> weekdaysOn tz (sat + 2 * msPerDay) end_ ->
  calculateWorkingHours (N := N) tz start end_
  = workingLoop tz (sat + 2 * msPerDay) end_ (calculateWorkingHours tz start sat)
  /\ (calculateWorkingHours (N := Q) tz start end_
      == inject_Z (end_ - start) / inject_Z msPerHour - 48)%Q
  /\ (calculateWorkingHours (N := Q) tz
        (sat - 7 * msPerHour) (sat + 2 * msPerDay + 10 * msPerHour) == 17)%Q
  /\ isWithinOneWorkingDay (N := Q) tz
       (sat - 7 * msPerHour) (sat + 2 * msPerDay + 10 * msPerHour) = true
  /\ calculateWorkingHours (N := float) tz
       (sat - 7 * msPerHour) (sat + 2 * msPerDay + 10 * msPerHour) = ofZ 17
  /\ isWithinOneWorkingDay (N := float) tz
       (sat - 7 * msPerHour) (sat + 2 * msPerDay + 10 * msPerHour) = true.
Proof.
  intros Hm Hsat Hs Hwd1 He Hwd2.
  split; [apply calculateWorkingHours_over_weekend; assumption |].
  split.
  - rewrite (calculateWorkingHours_over_weekend tz start end_ sat) by assumption.
    rewrite (workingLoop_weekdays tz _ _ end_ _ (le_n _) He Hwd2).
    unfold calculateWorkingHours.
    rewrite (proj2 (Z.ltb_ge sat start)) by lia. cbv zeta.
    rewrite (workingLoop_weekdays tz _ start sat _ (le_n _) Hs Hwd1).
    rewrite !hoursBetween_exact. change (@ofZ Q exact 0) with 0%Q.
    replace (end_ - start)
      with ((sat - start) + (end_ - (sat + 2 * msPerDay)) + 2 * msPerDay) by lia.
    rewrite !inject_Z_plus.
    change (inject_Z (2 * msPerDay)) with (48 * inject_Z msPerHour)%Q.
    field. discriminate.
  - unfold isWithinOneWorkingDay. cbv zeta.
    rewrite !(friday_17h_to_monday_10h tz sat Hm Hsat).
    repeat split; vm_compute; reflexivity.
Qed.

Lemma weekend_contributes_zero_witness :
  calculateWorkingHours (N := float) 0 friday_17h monday_10h
  = workingLoop 0 (saturday_0h + 2 * msPerDay) monday_10h
                (calculateWorkingHours 0 friday_17h saturday_0h)
  /\ (calculateWorkingHours (N := Q) 0 friday_17h monday_10h
      == inject_Z (monday_10h - friday_17h) / inject_Z msPerHour - 48)%Q
  /\ (calculateWorkingHours (N := Q) 0
        (saturday_0h - 7 * msPerHour)
        (saturday_0h + 2 * msPerDay + 10 * msPerHour) == 17)%Q
  /\ isWithinOneWorkingDay (N := Q) 0
       (saturday_0h - 7 * msPerHour)
       (saturday_0h + 2 * msPerDay + 10 * msPerHour) = true
  /\ calculateWorkingHours (N := float) 0
       (saturday_0h - 7 * msPerHour)
       (saturday_0h + 2 * msPerDay + 10 * msPerHour) = ofZ 17
  /\ isWithinOneWorkingDay (N := float) 0
       (saturday_0h - 7 * msPerHour)
       (saturday_0h + 2 * msPerDay + 10 * msPerHour) = true.
Proof.
  apply (weekend_contributes_zero (N := float) 0 friday_17h monday_10h saturday_0h).
  - reflexivity.
  - reflexivity.
  - unfold friday_17h, saturday_0h. lia.
  - unfold weekdaysOn, friday_17h, saturday_0h. intros t Ht.
    unfold isWeekend, getDay, localDay. rewrite msPerDay_eq.
    apply orb_false_intro; apply Z.eqb_neq;
      Z.to_euclidean_division_equations; lia.
  - unfold saturday_0h, monday_10h. rewrite msPerDay_eq. lia.
  - unfold weekdaysOn, saturday_0h, monday_10h. rewrite msPerDay_eq.
    intros t Ht.
    unfold isWeekend, getDay, localDay. rewrite msPerDay_eq.
    apply orb_false_intro; apply Z.eqb_neq;
      Z.to_euclidean_division_equations; lia.
Defined.

(** ** Week start *)

(** C5.  [getWeekStart] returns a local midnight that begins a Monday, is
    not after the given instant and is less than seven days before it; for
    an instant on a Sunday it is the Monday six days earlier. *)
Theorem getWeekStart_monday tz date :
  getDay tz (getWeekStart tz date) = 1
  /\ isMidnight tz (getWeekStart tz date)
  /\ getWeekStart tz date <= date
  /\ date - 7 * msPerDay < getWeekStart tz date
  /\ (getDay tz date = 0 ->
      localDay tz (getWeekStart tz date) = localDay tz date - 6).
Proof.
  set (ld := localDay tz date).
  set (k := - getDay tz date + (if getDay tz date =? 0 then -6 else 1)).
  assert (Hk : -6 <= k <= 0 /\ (ld + k + 4) mod 7 = 1
               /\ (getDay tz date = 0 -> k = -6)).
  { unfold k, getDay. fold ld.
    destruct ((ld + 4) mod 7 =? 0) eqn:E.
    - apply Z.eqb_eq in E. rewrite E.
      repeat split; try lia.
      Z.to_euclidean_division_equations. lia.
    - apply Z.eqb_neq in E.
      repeat split; try (Z.to_euclidean_division_equations; lia). }
  destruct Hk as (Hk & Hmod & Hsun).
  pose proof (localDay_bounds tz date) as Hb. fold ld in Hb.
  assert (Hld : localDay tz (addDays date k) = ld + k).
  { apply localDay_unique. unfold addDays. rewrite msPerDay_eq in *. lia. }
  assert (Hw : getWeekStart tz date = (ld + k) * msPerDay - tz).
  { unfold getWeekStart. cbv zeta. fold k. unfold startOfDay. rewrite Hld.
    reflexivity. }
  assert (Hlw : localDay tz (getWeekStart tz date) = ld + k).
  { apply localDay_unique. rewrite Hw, msPerDay_eq. lia. }
  repeat split.
  - unfold getDay. rewrite Hlw. exact Hmod.
  - unfold isMidnight, startOfDay. rewrite Hlw. symmetry. exact Hw.
  - rewrite Hw. rewrite msPerDay_eq in *. lia.
  - rewrite Hw. rewrite msPerDay_eq in *. lia.
  - intros Hs. rewrite Hlw, (Hsun Hs). lia.
Qed.

(** ** Statistics *)

Lemma numLe_iff (a b : Q) : numLe a b <-> (a <= b)%Q.
Proof. apply Qle_bool_iff. Qed.

#[global] Instance numLe_total : Total (numLe (N := Q)).
Proof.
  intros a b. rewrite !numLe_iff.
  destruct (Qlt_le_dec a b) as [H | H]; [left; apply Qlt_le_weak, H | right; exact H].
Qed.

#[global] Instance numLe_trans : Transitive (numLe (N := Q)).
Proof. intros a b c. rewrite !numLe_iff. apply Qle_trans. Qed.











(** ** Overall metrics *)





(** ** Weekly summary *)

Lemma map_get_set k k' v m :
  map_get k (map_set k' v m) = if k' =? k then Some v else map_get k m.
Proof.
  induction m as [| [k0 v0] m IH]; simpl.
  - reflexivity.
  - destruct (Z.eqb_spec k0 k'); simpl.
    + subst. destruct (Z.eqb_spec k' k); reflexivity.
    + rewrite IH.
      destruct (Z.eqb_spec k0 k), (Z.eqb_spec k' k); try reflexivity; lia.
Qed.

Lemma map_get_modify k k' f m :
  map_get k (map_modify k' f m)
  = if k' =? k then f <$> map_get k m else map_get k m.
Proof.
  induction m as [| [k0 v0] m IH]; simpl.
  - destruct (k' =? k); reflexivity.
  - destruct (Z.eqb_spec k0 k'); simpl.
    + subst. destruct (Z.eqb_spec k' k); reflexivity.
    + rewrite IH.
      destruct (Z.eqb_spec k0 k), (Z.eqb_spec k' k); try reflexivity; lia.
Qed.

Lemma map_modify_keys k f m : List.map fst (map_modify k f m) = List.map fst m.
Proof.
  induction m as [| [k0 v0] m IH]; simpl; [reflexivity |].
  destruct (k0 =? k); simpl; [reflexivity | rewrite IH; reflexivity].
Qed.

Lemma map_get_None_keys k m : map_get k m = None <-> ~ In k (List.map fst m).
Proof.
  induction m as [| [k0 v0] m IH]; simpl.
  - tauto.
  - destruct (Z.eqb_spec k0 k).
    + split; [discriminate | intros H; exfalso; apply H; left; assumption].
    + rewrite IH. tauto.
Qed.

Lemma map_set_fresh k v m : map_get k m = None -> map_set k v m = m ++ [(k, v)].
Proof.
  induction m as [| [k0 v0] m IH]; simpl; [reflexivity |].
  destruct (k0 =? k); [discriminate |].
  intros H. rewrite (IH H). reflexivity.
Qed.

Lemma map_get_In k v m : map_get k m = Some v -> In (k, v) m.
Proof.
  induction m as [| [k0 v0] m IH]; simpl; [discriminate |].
  destruct (Z.eqb_spec k0 k).
  - intros [= ->]. subst. left. reflexivity.
  - intros H. right. apply IH, H.
Qed.

Lemma In_map_get k v m : NoDup (List.map fst m) -> In (k, v) m -> map_get k m = Some v.
Proof.
  induction m as [| [k0 v0] m IH]; simpl; [tauto |].
  intros Hnd [Heq | Hin].
  - injection Heq as -> ->. rewrite Z.eqb_refl. reflexivity.
  - apply NoDup_cons in Hnd as [Hk0 Hnd].
    destruct (Z.eqb_spec k0 k).
    + subst. exfalso. apply Hk0, list_elem_of_In.
      apply (in_map fst) in Hin. exact Hin.
    + apply IH; assumption.
Qed.

Lemma countWeek_snoc {N} k (done : list (IssueData.t N)) item :
  countWeek k (done ++ [item])
  = (countWeek k done + if (IssueData.weekStarting item =? k)%Z then 1 else 0)%nat.
Proof.
  unfold countWeek. rewrite List.filter_app, length_app. simpl.
  destruct (IssueData.weekStarting item =? k); reflexivity.
Qed.

Lemma countWeekWithin_snoc {N} k (done : list (IssueData.t N)) item :
  countWeekWithin k (done ++ [item])
  = (countWeekWithin k done
     + if (IssueData.weekStarting item =? k)%Z && IssueData.respondedWithinOneDay item
       then 1 else 0)%nat.
Proof.
  unfold countWeekWithin. rewrite List.filter_app, length_app. simpl.
  destruct ((IssueData.weekStarting item =? k) && IssueData.respondedWithinOneDay item);
    reflexivity.
Qed.

Lemma countWeekWithin_le {N} k (data : list (IssueData.t N)) :
  (countWeekWithin k data <= countWeek k data)%nat.
Proof.
  unfold countWeekWithin, countWeek.
  induction data as [| r data IH]; simpl; [lia |].
  destruct (IssueData.weekStarting r =? k), (IssueData.respondedWithinOneDay r);
    simpl; lia.
Qed.

Lemma weeklyStep_inv {N} m (done : list (IssueData.t N)) item :
  weeklyInv m done -> weeklyInv (weeklyStep m item) (done ++ [item]).
Proof.
  intros [Hnd Hget]. unfold weeklyStep. cbv zeta.
  set (wk := IssueData.weekStarting item).
  set (m1 := if negb (map_has wk m)
             then map_set wk {| total := 0; withinOneDay := 0 |} m else m).
  assert (Hnd1 : NoDup (List.map fst m1)).
  { unfold m1, map_has. destruct (map_get wk m) eqn:E; simpl; [exact Hnd |].
    rewrite (map_set_fresh _ _ _ E), map_app. simpl.
    apply NoDup_app. repeat split.
    - exact Hnd.
    - intros x Hx Hin. apply list_elem_of_singleton in Hin. subst x.
      apply map_get_None_keys in E. apply E, list_elem_of_In, Hx.
    - apply NoDup_singleton. }
  assert (Hget1 : map_get wk m1
                  = Some {| total := countWeek wk done;
                            withinOneDay := countWeekWithin wk done |}).
  { unfold m1, map_has. pose proof (Hget wk) as Hw. unfold weekEntry in Hw.
    destruct (map_get wk m) eqn:E; simpl.
    - destruct (countWeek wk done =? 0)%nat; [discriminate | congruence].
    - rewrite map_get_set, Z.eqb_refl.
      destruct (countWeek wk done =? 0)%nat eqn:E0; [| discriminate].
      apply Nat.eqb_eq in E0. pose proof (countWeekWithin_le wk done).
      rewrite E0. replace (countWeekWithin wk done) with 0%nat by lia. reflexivity. }
  assert (Hother : forall k, k <> wk -> map_get k m1 = map_get k m).
  { intros k Hk. unfold m1. destruct (negb (map_has wk m)); [| reflexivity].
    rewrite map_get_set. destruct (Z.eqb_spec wk k); [lia | reflexivity]. }
  split.
  - destruct (IssueData.respondedWithinOneDay item);
      rewrite ?map_modify_keys; exact Hnd1.
  - intros k. unfold weekEntry.
    rewrite countWeek_snoc, countWeekWithin_snoc. fold wk.
    destruct (Z.eqb_spec wk k) as [<- | Hne].
    + replace (countWeek wk done + 1 =? 0)%nat with false
        by (symmetry; apply Nat.eqb_neq; lia).
      destruct (IssueData.respondedWithinOneDay item); simpl.
      * rewrite !map_get_modify, Z.eqb_refl, Hget1. simpl.
        do 2 f_equal; lia.
      * rewrite map_get_modify, Z.eqb_refl, Hget1. simpl.
        do 2 f_equal; lia.
    + simpl. rewrite !Nat.add_0_r.
      assert (Hk : map_get k m1 = weekEntry k done)
        by (rewrite Hother by lia; apply Hget).
      destruct (IssueData.respondedWithinOneDay item);
        rewrite !map_get_modify;
        destruct (Z.eqb_spec wk k); try lia; exact Hk.
Qed.

Lemma weeklyFold_inv {N} (items : list (IssueData.t N)) : forall m done,
  weeklyInv m done -> weeklyInv (fold_left weeklyStep items m) (done ++ items).
Proof.
  induction items as [| item items IH]; intros m done H; simpl.
  - rewrite app_nil_r. exact H.
  - replace (done ++ item :: items) with ((done ++ [item]) ++ items)
      by (rewrite <- app_assoc; reflexivity).
    apply IH, weeklyStep_inv, H.
Qed.

Lemma sumTotals_modify k f d m :
  (forall v, total (f v) = (total v + d)%nat) ->
  map_has k m = true ->
  sumTotals (map_modify k f m) = (sumTotals m + d)%nat.
Proof.
  intros Hf. unfold map_has, sumTotals.
  induction m as [| [k0 v0] m IH]; simpl; [discriminate |].
  destruct (k0 =? k); simpl; intros H.
  - rewrite Hf. lia.
  - rewrite (IH H). lia.
Qed.

Lemma sumTotals_modify_same k f m :
  (forall v, total (f v) = total v) ->
  sumTotals (map_modify k f m) = sumTotals m.
Proof.
  intros Hf. unfold sumTotals.
  induction m as [| [k0 v0] m IH]; simpl; [reflexivity |].
  destruct (k0 =? k); simpl; [rewrite Hf | rewrite IH]; reflexivity.
Qed.

Lemma weeklyStep_sum {N} m (item : IssueData.t N) :
  sumTotals (weeklyStep m item) = S (sumTotals m).
Proof.
  unfold weeklyStep. cbv zeta.
  set (wk := IssueData.weekStarting item).
  set (m1 := if negb (map_has wk m)
             then map_set wk {| total := 0; withinOneDay := 0 |} m else m).
  assert (H1 : map_has wk m1 = true /\ sumTotals m1 = sumTotals m).
  { unfold m1. destruct (map_has wk m) eqn:E; simpl; [split; [exact E | reflexivity] |].
    split.
    - unfold map_has. rewrite map_get_set, Z.eqb_refl. reflexivity.
    - unfold map_has in E. destruct (map_get wk m) eqn:G; [discriminate |].
      rewrite (map_set_fresh _ _ _ G). unfold sumTotals.
      rewrite map_app, list_sum_app. simpl. lia. }
  destruct H1 as [Hhas Hsum].
  destruct (IssueData.respondedWithinOneDay item);
    rewrite ?sumTotals_modify_same by reflexivity;
    rewrite (sumTotals_modify wk _ 1 m1) by first [exact Hhas | intros; simpl; lia]; lia.
Qed.

Lemma weeklyFold_sum {N} (items : list (IssueData.t N)) : forall m,
  sumTotals (fold_left weeklyStep items m) = (sumTotals m + length items)%nat.
Proof.
  induction items as [| item items IH]; intros m; simpl; [lia |].
  rewrite IH, weeklyStep_sum. lia.
Qed.

Lemma list_sum_Permutation l1 l2 : Permutation l1 l2 -> list_sum l1 = list_sum l2.
Proof. induction 1; simpl; lia. Qed.

#[global] Instance weekLe_total : Total weekLe.
Proof. intros a b. unfold weekLe. lia. Qed.

#[global] Instance weekLe_trans : Transitive weekLe.
Proof. intros a b c. unfold weekLe. lia. Qed.

Lemma sorted_distinct_strict l :
  StronglySorted weekLe l ->
  NoDup (List.map WeeklySummary.weekStarting l) ->
  StronglySorted weekLt l.
Proof.
  induction 1 as [| x l Hs IH Hall]; simpl; intros Hnd; [constructor |].
  apply NoDup_cons in Hnd as [Hx Hnd].
  constructor; [apply IH, Hnd |].
  rewrite Forall_forall in *. intros y Hy.
  pose proof (Hall y Hy) as Hle. unfold weekLe in Hle. unfold weekLt.
  assert (WeeklySummary.weekStarting x <> WeeklySummary.weekStarting y).
  { intros E. apply Hx. rewrite E.
    apply list_elem_of_In, in_map, list_elem_of_In, Hy. }
  lia.
Qed.

(** C8.  [calculateWeeklySummary] has one summary per week start of the
    input: the summaries are in strictly ascending order of week start,
    each holds the number of records of its week (never zero) and the
    number of those answered within one working day, every record has the
    summary of its week, and the totals add up to the number of records. *)
Theorem weekly_summary_groups_sorted_total {N} (data : list (IssueData.t N)) :
  StronglySorted weekLt (calculateWeeklySummary data)
  /\ Forall
       (fun s =>
          WeeklySummary.totalIssues s
          = countWeek (WeeklySummary.weekStarting s) data
          /\ WeeklySummary.respondedWithinOneDay s
             = countWeekWithin (WeeklySummary.weekStarting s) data
          /\ WeeklySummary.totalIssues s <> 0%nat)
       (calculateWeeklySummary data)
  /\ (forall r, In r data ->
        exists s, In s (calculateWeeklySummary data)
                  /\ WeeklySummary.weekStarting s = IssueData.weekStarting r)
  /\ list_sum (List.map WeeklySummary.totalIssues (calculateWeeklySummary data))
     = length data.
Proof.
  unfold calculateWeeklySummary. cbv zeta.
  set (m := fold_left weeklyStep data []).
  assert (Hinv : weeklyInv m data).
  { apply (weeklyFold_inv data [] []). split; [constructor | reflexivity]. }
  destruct Hinv as [Hnd Hget].
  pose proof (merge_sort_Permutation weekLe (List.map toSummary m)) as Hperm.
  assert (Hkeys : List.map WeeklySummary.weekStarting (List.map toSummary m)
                  = List.map fst m).
  { rewrite List.map_map. apply List.map_ext. intros [k v]. reflexivity. }
  repeat split.
  - apply sorted_distinct_strict.
    + apply StronglySorted_merge_sort; apply _.
    + rewrite (Permutation_map WeeklySummary.weekStarting Hperm), Hkeys.
      exact Hnd.
  - apply List.Forall_forall. intros s Hs.
    apply (Permutation_in _ Hperm) in Hs.
    apply in_map_iff in Hs as ([k v] & <- & Hin).
    apply (In_map_get _ _ _ Hnd) in Hin.
    rewrite Hget in Hin. unfold weekEntry in Hin.
    destruct (countWeek k data =? 0)%nat eqn:E; [discriminate |].
    apply Nat.eqb_neq in E. injection Hin as <-. simpl. auto.
  - intros r Hr.
    pose proof (Hget (IssueData.weekStarting r)) as Hk. unfold weekEntry in Hk.
    destruct (countWeek (IssueData.weekStarting r) data =? 0)%nat eqn:E.
    + exfalso. apply Nat.eqb_eq in E. unfold countWeek in E.
      assert (Hin : In r (List.filter
                (fun r0 => IssueData.weekStarting r0 =? IssueData.weekStarting r) data)).
      { apply List.filter_In. split; [exact Hr | apply Z.eqb_refl]. }
      destruct (List.filter _ data); [destruct Hin | discriminate].
    + apply map_get_In in Hk.
      eexists. split.
      * apply (Permutation_in _ (Permutation_sym Hperm)).
        apply in_map, Hk.
      * reflexivity.
  - rewrite (list_sum_Permutation _ _ (Permutation_map _ Hperm)).
    rewrite List.map_map.
    transitivity (sumTotals m).
    + unfold sumTotals. f_equal. apply List.map_ext. intros [k v]. reflexivity.
    + unfold m. rewrite weeklyFold_sum. reflexivity.
Qed.

(** ** First response of a pull request *)








(** ** Records *)

Lemma toIssueData_invariant {N} `{Number N} tz repo item type firstResponse :
  recordInvariant tz (toIssueData (N := N) tz repo item type firstResponse).
Proof.
  unfold recordInvariant, toIssueData. cbv zeta. simpl.
  destruct firstResponse as [r |]; simpl.
  - split.
    + unfold isWithinOneWorkingDay. cbv zeta. split.
      * intros Hle. exists (respondedAt r). auto.
      * intros (t & [= <-] & _ & Hle). exact Hle.
    + split; discriminate.
  - split; [| tauto]. split; [discriminate |].
    intros (t & Ht & _). discriminate.
Qed.

Lemma issueStep_invariant {N} `{Number N} tz this repo
    (issues : list (IssueData.t N)) item :
  Forall (recordInvariant tz) issues ->
  Forall (recordInvariant tz) (issueStep tz this repo issues item).
Proof.
  intros Hacc. unfold issueStep.
  destruct (item_pull_request item); [exact Hacc |]. cbv zeta.
  destruct (isExcludedUser this _); [exact Hacc |].
  apply Forall_app. split; [exact Hacc |].
  constructor; [apply toIssueData_invariant | constructor].
Qed.

Lemma fetchIssues_invariant {N} `{Number N} tz this repo startDate endDate
    (issues : list (IssueData.t N)) :
  fetchIssues tz this repo startDate endDate = Ok issues ->
  Forall (recordInvariant tz) issues.
Proof.
  unfold fetchIssues.
  destruct (search_issuesAndPullRequests _ _ _ _ _) as [searchResults | message];
    simpl; [| discriminate].
  intros [= <-].
  assert (Hfold : forall items (acc : list (IssueData.t N)),
            Forall (recordInvariant tz) acc ->
            Forall (recordInvariant tz) (fold_left (issueStep tz this repo) items acc)).
  { induction items as [| item items IH]; intros acc Hacc; simpl; [exact Hacc |].
    apply IH, issueStep_invariant, Hacc. }
  apply Hfold. constructor.
Qed.

Lemma processPullRequest_invariant {N} `{Number N} tz this repo item
    (r : IssueData.t N) :
  processPullRequest tz this repo item = Ok (Some r) -> recordInvariant tz r.
Proof.
  unfold processPullRequest. cbv zeta.
  destruct (isExcludedUser this _); simpl; [discriminate |].
  destruct (String.eqb (item_state item) "closed").
  - destruct (pulls_get _ _ _) as [details | message]; simpl.
    + intros [= <-]. apply toIssueData_invariant.
    + destruct (isRateLimitMessage message); discriminate.
  - simpl. intros [= <-]. apply toIssueData_invariant.
Qed.

Lemma promiseAll_invariant {A B} (f : A -> Result (option B)) (P : B -> Prop) :
  (forall x r, f x = Ok (Some r) -> P r) ->
  forall batch results,
    promiseAll (List.map f batch) = Ok results -> Forall P (nonNull results).
Proof.
  intros Hf. induction batch as [| x batch IH]; intros results; simpl.
  - intros [= <-]. constructor.
  - destruct (f x) as [o |] eqn:Hx; simpl; [| discriminate].
    destruct (promiseAll (List.map f batch)) as [rest |]; simpl; [| discriminate].
    intros [= <-]. unfold nonNull. simpl.
    destruct o as [r |]; simpl.
    + constructor; [apply (Hf x), Hx | apply IH; reflexivity].
    + apply IH. reflexivity.
Qed.

Lemma batchLoop_step {N} `{Number N} tz this repo pullRequests i
    (prs : list (IssueData.t N)) :
  batchLoop tz this repo pullRequests i prs
  = if (i <? length pullRequests)%nat then
      match promiseAll (List.map (processPullRequest tz this repo)
                          (slice i (i + BATCH_SIZE) pullRequests)) with
      | Ok results =>
          batchLoop tz this repo pullRequests (i + BATCH_SIZE)%nat
                    (prs ++ nonNull results)
      | Throw message => Throw message
      end
    else Ok prs.
Proof.
  rewrite batchLoop_equation_1.
  destruct (lt_dec i (length pullRequests)) as [Hlt | Hge]; simpl.
  - rewrite (proj2 (Nat.ltb_lt _ _) Hlt). reflexivity.
  - rewrite (proj2 (Nat.ltb_ge _ _)) by lia. reflexivity.
Qed.

Lemma batchLoop_invariant {N} `{Number N} tz this repo pullRequests n :
  forall i (prs out : list (IssueData.t N)),
  (length pullRequests - i <= n)%nat ->
  Forall (recordInvariant tz) prs ->
  batchLoop tz this repo pullRequests i prs = Ok out ->
  Forall (recordInvariant tz) out.
Proof.
  induction n as [| n IH]; intros i prs out Hn Hprs; rewrite batchLoop_step.
  - rewrite (proj2 (Nat.ltb_ge _ _)) by lia. intros [= <-]. exact Hprs.
  - destruct (Nat.ltb_spec i (length pullRequests)) as [Hlt | Hge].
    + destruct (promiseAll _) as [results |] eqn:Hall; [| discriminate].
      apply IH.
      * unfold BATCH_SIZE. lia.
      * apply Forall_app. split; [exact Hprs |].
        eapply promiseAll_invariant; [| exact Hall].
        intros x r. apply processPullRequest_invariant.
    + intros [= <-]. exact Hprs.
Qed.

Lemma fetchPullRequests_invariant {N} `{Number N} tz this repo startDate endDate
    (prs : list (IssueData.t N)) :
  fetchPullRequests tz this repo startDate endDate = Ok prs ->
  Forall (recordInvariant tz) prs.
Proof.
  unfold fetchPullRequests.
  destruct (search_issuesAndPullRequests _ _ _ _ _) as [searchResults | message];
    simpl; [| discriminate].
  destruct (batchLoop _ _ _ _ _ _) as [out |] eqn:Hloop; simpl; [| discriminate].
  intros [= <-].
  eapply batchLoop_invariant; [apply Nat.le_refl | constructor | exact Hloop].
Qed.

(** C1.  Every record of the list that [fetchAllData] produces, issue or
    pull request, is marked as answered within one working day exactly when
    it has a first response and the working hours computed from its
    creation to that response are at most 24, and it has no response time
    exactly when it has no first response; in exact arithmetic and on
    doubles alike. *)
Theorem records_satisfy_invariants {N} `{Number N} tz this repositories
    startDate endDate (data : list (IssueData.t N)) :
  fetchAllData tz this repositories startDate endDate = Ok data ->
  Forall (recordInvariant tz) data.
Proof.
  unfold fetchAllData.
  assert (Hfrom : forall repos (allData : list (IssueData.t N)),
            Forall (recordInvariant tz) allData ->
            fetchAllData_from tz this repos startDate endDate allData = Ok data ->
            Forall (recordInvariant tz) data).
  { induction repos as [| repo repos IH]; intros allData Hacc; simpl.
    - intros [= <-]. exact Hacc.
    - destruct (fetchIssues _ _ _ _ _) as [issues |] eqn:Hi; simpl; [| discriminate].
      destruct (fetchPullRequests _ _ _ _ _) as [prs |] eqn:Hp; simpl; [| discriminate].
      apply IH. repeat (apply Forall_app; split).
      + exact Hacc.
      + eapply fetchIssues_invariant, Hi.
      + eapply fetchPullRequests_invariant, Hp. }
  apply Hfrom. constructor.
Qed.

Lemma records_satisfy_invariants_witness :
  Forall (recordInvariant (N := float) 0)
    (match fetchAllData 0 sampleAnalytics ["flow"] monday_9h friday_17h with
     | Ok data => data
     | Throw _ => []
     end).
Proof.
  apply (records_satisfy_invariants (N := float) 0 sampleAnalytics ["flow"]
           monday_9h friday_17h).
  vm_compute. reflexivity.
Defined.

(** ** Where the code departs from the specification *)

Lemma firstOrgComment_ignores_excluded this excluded comments :
  firstOrgComment
    {| octokit := octokit this;
       orgMembers := orgMembers this;
       excludedUsers := excluded |}
    comments
  = firstOrgComment this comments.
Proof.
  induction comments as [| comment comments IH]; simpl; [reflexivity |].
  rewrite IH. reflexivity.
Qed.

(** C6 (not met by the code).  The exclusion set is consulted for the
    reporter only.  Whether an event counts as a response depends on the set
    of organization members alone, whatever the exclusion set holds; so
    [ci-bot], an organization member listed under [excludeBots], has its own
    issue dropped and yet is reported as the first responder of a visitor's
    issue, five minutes after its creation. *)
Theorem excluded_user_counts_as_responder :
  (forall this excluded repo issueNumber type prDetails,
      findFirstOrgResponse
        {| octokit := octokit this;
           orgMembers := orgMembers this;
           excludedUsers := excluded |}
        repo issueNumber type prDetails
      = findFirstOrgResponse this repo issueNumber type prDetails)
  /\ isExcludedUser botAnalytics "ci-bot" = true
  /\ findFirstOrgResponse botAnalytics "flow" 21 issue None
     = Some (mkFirstResponse monday_9h05 "ci-bot")
  /\ exists r,
       fetchIssues (N := float) 0 botAnalytics "flow" monday_9h friday_17h = Ok [r]
       /\ IssueData.number r = 21
       /\ IssueData.reportedBy r = Some "visitor"
       /\ IssueData.respondedBy r = Some "ci-bot"
       /\ IssueData.firstResponseAt r = Some monday_9h05
       /\ IssueData.respondedWithinOneDay r = true.
Proof.
  split.
  { intros this excluded repo issueNumber type prDetails.
    unfold findFirstOrgResponse, findFirstOrgResponse_try.
    destruct type; [| reflexivity]. simpl.
    destruct (issues_listComments _ _ _); simpl; [| reflexivity].
    apply firstOrgComment_ignores_excluded. }
  split; [reflexivity |].
  split; [reflexivity |].
  eexists. split; [vm_compute; reflexivity |].
  repeat split.
Qed.

(** C9 (not met by the code).  [findFirstOrgResponse] catches every error
    of the comment and review lookups, also one whose message reports an
    exhausted request quota: the item is then recorded as unanswered.  In
    the run below every comment lookup fails with such a message, and the
    run ends with exit status 0, without the rate-limit notice, and reports
    issue 7 as never answered.  The same failure in the search or in the
    detail fetch of a pull request does end the run with exit status 1 and
    the notice. *)
Theorem rate_limit_in_lookup_is_swallowed :
  (forall this repo issueNumber type prDetails message,
      issues_listComments (octokit this) repo issueNumber = Throw message ->
      findFirstOrgResponse this repo issueNumber type prDetails = None)
  /\ isRateLimitMessage quotaMessage = true
  /\ exitCode (main (N := float) 0 commentsLimitedApi sampleConfig monday_9h friday_17h) = 0
  /\ rateLimitNotice (main (N := float) 0 commentsLimitedApi sampleConfig monday_9h friday_17h)
     = false
  /\ (exists rep r,
        report (main (N := float) 0 commentsLimitedApi sampleConfig monday_9h friday_17h)
        = Some rep
        /\ In r (reportData rep)
        /\ IssueData.number r = 7
        /\ IssueData.firstResponseAt r = None)
  /\ exitCode (main (N := float) 0 searchLimitedApi sampleConfig monday_9h friday_17h) = 1
  /\ rateLimitNotice (main (N := float) 0 searchLimitedApi sampleConfig monday_9h friday_17h)
     = true
  /\ exitCode (main (N := float) 0 detailLimitedApi sampleConfig monday_9h friday_17h) = 1
  /\ rateLimitNotice (main (N := float) 0 detailLimitedApi sampleConfig monday_9h friday_17h)
     = true.
Proof.
  split.
  { intros this repo issueNumber type prDetails message H.
    unfold findFirstOrgResponse, findFirstOrgResponse_try.
    destruct type; rewrite H; reflexivity. }
  split; [reflexivity |].
  split; [vm_compute; reflexivity |].
  split; [vm_compute; reflexivity |].
  split.
  { eexists. eexists. split; [vm_compute; reflexivity |].
    split; [left; reflexivity |]. split; reflexivity. }
  repeat split; vm_compute; reflexivity.
Qed.
